(** * The GCS-event import handler of [main.py]

    A shallow embedding of [import_document_on_gcs_event]: the function reads
    two fields of a storage notification, builds one import request for the
    Discovery Engine document service, submits it, waits for the long-running
    operation and prints what happened.

    Everything the function does to the outside world (a [print], the
    construction of the service client, the submission, the wait) is recorded
    in a trace, and the function's result says whether it returned or let an
    exception escape. *)

From Stdlib Require Import Ascii.
From stdpp Require Import base option list strings gmap.

Local Open Scope string_scope.

(** ** Python values and exceptions *)

(** The values a field of the event payload or an environment variable can
    hold here: a string, or [None] (what [dict.get] and [os.environ.get]
    return for a missing key, and what a JSON null decodes to). *)
Inductive pyval : Type :=
  | PyNone
  | PyStr (s : string).

(** [str(v)], as an f-string formats a value. *)
Definition str (v : pyval) : string :=
  match v with
  | PyNone => "None"
  | PyStr s => s
  end.

(** Truth value of a Python value: [None] and the empty string are false. *)
Definition truthy (v : pyval) : bool :=
  match v with
  | PyNone => false
  | PyStr EmptyString => false
  | PyStr (String _ _) => true
  end.

(** [a != b] on Python values. *)
Definition py_ne (a b : pyval) : bool :=
  match a, b with
  | PyNone, PyNone => false
  | PyStr s, PyStr t => negb (String.eqb s t)
  | _, _ => true
  end.

(** [d.get(k)]: the value under [k], [None] when the key is missing. *)
Definition dict_get (d : gmap string pyval) (k : string) : pyval :=
  default PyNone (d !! k).

(** A raised exception: whether its class derives from [Exception] (a
    [KeyboardInterrupt] or [SystemExit] does not), and [str(e)]. *)
Record exn : Type := Exn {
  is_Exception : bool;
  exn_str : string;
}.

(** ** The event and the messages of the document service *)

(** A CloudEvent: the [type] attribute (always present in a CloudEvent) and
    the [data] payload. *)
Record CloudEvent : Type := {
  ce_type : string;
  ce_data : gmap string pyval;
}.

Record ClientOptions : Type := {
  api_endpoint : string;
}.

Inductive ReconciliationMode : Type :=
  | RECONCILIATION_MODE_UNSPECIFIED
  | INCREMENTAL
  | FULL.

Record GcsSource : Type := {
  input_uris : list string;
  data_schema : string;
}.

Record ImportDocumentsRequest : Type := {
  parent : string;
  gcs_source : GcsSource;
  reconciliation_mode : ReconciliationMode;
}.

(** The response and the metadata of an import operation are only printed:
    they are kept as the text [print] shows. *)
Record ImportDocumentsResponse : Type := {
  response_text : string;
}.

Record ImportDocumentsMetadata : Type := {
  metadata_text : string;
}.

(** The long-running operation [import_documents] hands back:
    [operation.operation.name], what [operation.result()] does once the
    wait is over (a response, or an exception), and what reading
    [operation.metadata] into an [ImportDocumentsMetadata] does (the
    metadata, or an exception). *)
Record Operation : Type := {
  operation_name : string;
  result : exn + ImportDocumentsResponse;
  metadata : exn + ImportDocumentsMetadata;
}.

(** A client of the document service: [import_documents] returns an
    operation or raises. *)
Record DocumentServiceClient : Type := {
  import_documents : ImportDocumentsRequest → exn + Operation;
}.

(** The [discoveryengine] library as the handler meets it: constructing a
    client with some options returns a client or raises. *)
Record discoveryengine : Type := {
  new_DocumentServiceClient : option ClientOptions → exn + DocumentServiceClient;
}.

(** ** Runs: a trace of effects and an outcome *)

Inductive effect : Type :=
  | Print (line : string)
  | NewClient (client_options : option ClientOptions)
  | ImportDocuments (request : ImportDocumentsRequest)
  | OperationResult (name : string).

(** A run of Python code: the effects performed, in order, and then either
    the value returned ([inr]) or the exception that escaped ([inl]). *)
Record run (A : Type) : Type := Run {
  trace : list effect;
  outcome : exn + A;
}.
Arguments Run {A} _ _.
Arguments trace {A} _.
Arguments outcome {A} _.

#[global] Instance run_ret : MRet run := λ A a, Run [] (inr a).

#[global] Instance run_bind : MBind run := λ A B f m,
  match outcome m with
  | inl e => Run (trace m) (inl e)
  | inr a => Run (trace m ++ trace (f a)) (outcome (f a))
  end.

(** An effect whose result the outside world decides. *)
Definition perform {A : Type} (eff : effect) (r : exn + A) : run A :=
  Run [eff] r.

Definition print (line : string) : run unit :=
  perform (Print line) (inr tt).

(** A computation on values already at hand: it leaves nothing in the
    trace, and returns or raises. *)
Definition evaluate {A : Type} (r : exn + A) : run A :=
  Run [] r.

(** [try: body / except Exception as e: handler e]: an exception of [body]
    whose class derives from [Exception] is handed to [handler]; any other
    exception escapes. *)
Definition try_except {A : Type} (body : run A) (handler : exn → run A) : run A :=
  match outcome body with
  | inl e =>
      if is_Exception e
      then Run (trace body ++ trace (handler e)) (outcome (handler e))
      else body
  | inr _ => body
  end.

(** What a trace shows: the printed lines, the clients constructed, the
    requests submitted, and every call to the service library. *)
Definition printed (t : list effect) : list string :=
  omap (λ eff, match eff with Print line => Some line | _ => None end) t.

Definition clients (t : list effect) : list (option ClientOptions) :=
  omap (λ eff, match eff with NewClient o => Some o | _ => None end) t.

Definition submitted (t : list effect) : list ImportDocumentsRequest :=
  omap (λ eff, match eff with ImportDocuments r => Some r | _ => None end) t.

Definition is_service_call (eff : effect) : bool :=
  match eff with
  | Print _ => false
  | _ => true
  end.

Definition service_calls (t : list effect) : list effect :=
  List.filter is_service_call t.

(** ** The handler *)

Section Handler.

(** The module-level constants, read from the environment when the module
    is loaded: [os.environ.get] gives [None] for a variable that is not
    set. *)
Variables PROJECT_ID LOCATION DATASTORE_ID : pyval.

(** [DocumentServiceClient.branch_path] of the client library: the
    resource name of a branch, computed from its four components. *)
Variable branch_path : pyval → pyval → pyval → string → string.

(** The [gs://] URI of the object that triggered the event. *)
Definition gcs_uri (bucket_name file_name : pyval) : string :=
  "gs://" +:+ str bucket_name +:+ "/" +:+ str file_name.

(** The API endpoint follows the location. *)
Definition client_options : option ClientOptions :=
  if py_ne LOCATION (PyStr "global")
  then Some {| api_endpoint := str LOCATION +:+ "-discoveryengine.googleapis.com" |}
  else None.

(** The import request for one URI. *)
Definition request (gcs_uri : string) : ImportDocumentsRequest :=
  {| parent := branch_path PROJECT_ID LOCATION DATASTORE_ID "default_branch";
     gcs_source := {| input_uris := [gcs_uri]; data_schema := "content" |};
     reconciliation_mode := INCREMENTAL |}.

(** The body of the [try] block. *)
Definition import_document (lib : discoveryengine) (gcs_uri : string) : run unit :=
  client ← perform (NewClient client_options)
                   (new_DocumentServiceClient lib client_options);
  print ("Starting document import for: " +:+ gcs_uri);;
  operation ← perform (ImportDocuments (request gcs_uri))
                      (import_documents client (request gcs_uri));
  print ("Waiting for import operation to complete: " +:+ operation_name operation);;
  response ← perform (OperationResult (operation_name operation)) (result operation);
  metadata ← evaluate (metadata operation);
  print "Import operation response:";;
  print (response_text response);;
  print "Import operation metadata:";;
  print (metadata_text metadata);;
  print ("Successfully imported " +:+ gcs_uri +:+ " into datastore " +:+ str DATASTORE_ID).

Definition import_document_on_gcs_event
    (lib : discoveryengine) (cloud_event : CloudEvent) : run unit :=
  let data := ce_data cloud_event in
  let bucket_name := dict_get data "bucket" in
  let file_name := dict_get data "name" in
  let event_type := ce_type cloud_event in
  print ("Event type: " +:+ event_type);;
  print ("Bucket: " +:+ str bucket_name);;
  print ("File: " +:+ str file_name);;
  if negb (truthy file_name) || negb (truthy bucket_name)
  then print "No file name or bucket name found in the event data. Exiting."
  else
    print ("Constructed GCS URI: " +:+ gcs_uri bucket_name file_name);;
    try_except
      (import_document lib (gcs_uri bucket_name file_name))
      (λ e, print ("Error importing document " +:+ gcs_uri bucket_name file_name
                   +:+ ": " +:+ exn_str e)).

End Handler.

(** ** The module's constants *)

(** [os.environ.get(k)] on the process environment: the value of the
    variable, [None] when it is not set. *)
Definition os_environ_get (environ : gmap string string) (k : string) : pyval :=
  from_option PyStr PyNone (environ !! k).

(** The handler of the module as loaded in the environment [environ] (the
    environment as [load_dotenv()] leaves it): the three constants are read
    from it once, when the module is loaded. *)
Definition loaded_handler (environ : gmap string string)
    (branch_path : pyval → pyval → pyval → string → string)
    (lib : discoveryengine) (cloud_event : CloudEvent) : run unit :=
  import_document_on_gcs_event
    (os_environ_get environ "PROJECT_ID")
    (os_environ_get environ "LOCATION")
    (os_environ_get environ "DATASTORE_ID")
    branch_path lib cloud_event.

(** The waits performed: the names of the operations whose result was
    asked for. *)
Definition waits (t : list effect) : list string :=
  omap (λ eff, match eff with OperationResult name => Some name | _ => None end) t.

(** Whether a string has a slash in it. *)
Fixpoint has_slash (s : string) : bool :=
  match s with
  | EmptyString => false
  | String c rest => Ascii.eqb c "/"%char || has_slash rest
  end.

(** ** Events with and without the two fields *)

(** The payload has the field [k], holding the non-empty string [s]. *)
Definition has_field (cloud_event : CloudEvent) (k s : string) : Prop :=
  ce_data cloud_event !! k = Some (PyStr s) ∧ s ≠ "".

(** The field [k] is absent from the payload (no key, or a null), or
    empty. *)
Definition lacks_field (cloud_event : CloudEvent) (k : string) : Prop :=
  ce_data cloud_event !! k = None
  ∨ ce_data cloud_event !! k = Some PyNone
  ∨ ce_data cloud_event !! k = Some (PyStr "").

(** ** A scenario to run the handler on *)

Module Scenario.

(** The resource name of a branch as the client library formats it. *)
Definition branch_path (project location data_store : pyval) (branch : string) : string :=
  "projects/" +:+ str project +:+ "/locations/" +:+ str location
  +:+ "/dataStores/" +:+ str data_store +:+ "/branches/" +:+ branch.

Definition handle (LOCATION : pyval) :=
  import_document_on_gcs_event (PyStr "proj1") LOCATION (PyStr "ds1") branch_path.

Definition finalized : string := "google.cloud.storage.object.v1.finalized".
Definition deleted : string := "google.cloud.storage.object.v1.deleted".

Definition report_event (event_type : string) : CloudEvent :=
  {| ce_type := event_type;
     ce_data := {[ "bucket" := PyStr "docs-bucket";
                   "name" := PyStr "folder/report.pdf";
                   "contentType" := PyStr "application/pdf" ]} |}.

Definition no_bucket_event : CloudEvent :=
  {| ce_type := finalized;
     ce_data := {[ "name" := PyStr "folder/report.pdf" ]} |}.

Definition no_name_event : CloudEvent :=
  {| ce_type := finalized;
     ce_data := {[ "bucket" := PyStr "docs-bucket"; "name" := PyStr "" ]} |}.

(** Two events whose bucket and object name share the same characters,
    split at a different slash. *)
Definition nested_name_event : CloudEvent :=
  {| ce_type := finalized;
     ce_data := {[ "bucket" := PyStr "a"; "name" := PyStr "b/c" ]} |}.

Definition nested_bucket_event : CloudEvent :=
  {| ce_type := finalized;
     ce_data := {[ "bucket" := PyStr "a/b"; "name" := PyStr "c" ]} |}.

Definition report_uri : string := "gs://docs-bucket/folder/report.pdf".

Definition report_request : ImportDocumentsRequest :=
  {| parent := "projects/proj1/locations/global/dataStores/ds1/branches/default_branch";
     gcs_source := {| input_uris := [report_uri]; data_schema := "content" |};
     reconciliation_mode := INCREMENTAL |}.

Definition response : ImportDocumentsResponse :=
  {| response_text := "error_samples: []" |}.

Definition done_operation : Operation :=
  {| operation_name := "operations/import-documents-1";
     result := inr response;
     metadata := inr {| metadata_text := "success_count: 1" |} |}.

Definition permission_denied : exn :=
  {| is_Exception := true; exn_str := "403 Permission denied" |}.

Definition backend_fault : exn :=
  {| is_Exception := true; exn_str := "500 Internal error" |}.

Definition failed_operation : Operation :=
  {| operation_name := "operations/import-documents-2";
     result := inl backend_fault;
     metadata := inr {| metadata_text := "failure_count: 1" |} |}.

(** A service that imports the document. *)
Definition working_client : DocumentServiceClient :=
  {| import_documents := λ _, inr done_operation |}.
Definition working : discoveryengine :=
  {| new_DocumentServiceClient := λ _, inr working_client |}.

(** A service that refuses the submission. *)
Definition refusing_client : DocumentServiceClient :=
  {| import_documents := λ _, inl permission_denied |}.
Definition refusing : discoveryengine :=
  {| new_DocumentServiceClient := λ _, inr refusing_client |}.

(** A service whose operation fails while the handler waits. *)
Definition failing_client : DocumentServiceClient :=
  {| import_documents := λ _, inr failed_operation |}.
Definition failing : discoveryengine :=
  {| new_DocumentServiceClient := λ _, inr failing_client |}.

Definition metadata_error : exn :=
  {| is_Exception := true; exn_str := "Could not convert Any to ImportDocumentsMetadata" |}.

(** An operation that completes, and whose metadata cannot be read. *)
Definition unreadable_operation : Operation :=
  {| operation_name := "operations/import-documents-3";
     result := inr response;
     metadata := inl metadata_error |}.

Definition unreadable_client : DocumentServiceClient :=
  {| import_documents := λ _, inr unreadable_operation |}.
Definition unreadable : discoveryengine :=
  {| new_DocumentServiceClient := λ _, inr unreadable_client |}.

(** A [KeyboardInterrupt]: its class does not derive from [Exception]. *)
Definition keyboard_interrupt : exn :=
  {| is_Exception := false; exn_str := "" |}.

Definition no_credentials : exn :=
  {| is_Exception := true; exn_str := "Your default credentials were not found." |}.

(** A library that cannot construct the client. *)
Definition without_credentials : discoveryengine :=
  {| new_DocumentServiceClient := λ _, inl no_credentials |}.

(** A service whose submission is interrupted. *)
Definition interrupted_client : DocumentServiceClient :=
  {| import_documents := λ _, inl keyboard_interrupt |}.
Definition interrupted : discoveryengine :=
  {| new_DocumentServiceClient := λ _, inr interrupted_client |}.

(** An environment where only the project and the datastore are set. *)
Definition environ_without_location : gmap string string :=
  {[ "PROJECT_ID" := "proj1"; "DATASTORE_ID" := "ds1" ]}.

Definition other_event : CloudEvent :=
  {| ce_type := finalized;
     ce_data := {[ "bucket" := PyStr "docs-bucket"; "name" := PyStr "notes.txt" ]} |}.

End Scenario.

(** ** Equations of the run monad *)

Lemma print_then {A : Type} (line : string) (k : run A) :
  (print line;; k) = Run (Print line :: trace k) (outcome k).
Proof. reflexivity. Qed.

Lemma perform_raises {A B : Type} (eff : effect) (e : exn) (k : A → run B) :
  (perform eff (inl e) ≫= k) = Run [eff] (inl e).
Proof. reflexivity. Qed.

Lemma perform_returns {A B : Type} (eff : effect) (a : A) (k : A → run B) :
  (perform eff (inr a) ≫= k) = Run (eff :: trace (k a)) (outcome (k a)).
Proof. reflexivity. Qed.

Lemma evaluate_raises {A B : Type} (e : exn) (k : A → run B) :
  (evaluate (inl e) ≫= k) = Run [] (inl e).
Proof. reflexivity. Qed.

Lemma evaluate_returns {A B : Type} (a : A) (k : A → run B) :
  (evaluate (inr a) ≫= k) = k a.
Proof. unfold evaluate, mbind, run_bind. cbn. by destruct (k a). Qed.

Lemma try_except_returns {A : Type} (t : list effect) (a : A) (handler : exn → run A) :
  try_except (Run t (inr a)) handler = Run t (inr a).
Proof. reflexivity. Qed.

Lemma try_except_catches {A : Type} (t : list effect) (e : exn) (handler : exn → run A) :
  is_Exception e = true →
  try_except (Run t (inl e)) handler
  = Run (t ++ trace (handler e)) (outcome (handler e)).
Proof. intros He. unfold try_except. cbn [outcome trace]. by rewrite He. Qed.

Lemma try_except_escapes {A : Type} (t : list effect) (e : exn) (handler : exn → run A) :
  is_Exception e = false →
  try_except (Run t (inl e)) handler = Run t (inl e).
Proof. intros He. unfold try_except. cbn [outcome]. by rewrite He. Qed.

(** ** Truth values of the two fields *)

Lemma has_field_get (cloud_event : CloudEvent) (k s : string) :
  has_field cloud_event k s → dict_get (ce_data cloud_event) k = PyStr s.
Proof. intros [Hk _]. unfold dict_get. by rewrite Hk. Qed.

Lemma has_field_truthy (cloud_event : CloudEvent) (k s : string) :
  has_field cloud_event k s → truthy (dict_get (ce_data cloud_event) k) = true.
Proof.
  intros Hk. rewrite (has_field_get _ _ _ Hk).
  destruct Hk as [_ Hs]. by destruct s.
Qed.

Lemma lacks_field_falsy (cloud_event : CloudEvent) (k : string) :
  lacks_field cloud_event k ↔ truthy (dict_get (ce_data cloud_event) k) = false.
Proof.
  unfold lacks_field, dict_get.
  destruct (ce_data cloud_event !! k) as [[|[|a s]]|]; cbn;
    intuition congruence.
Qed.

Lemma py_ne_spec (a b : pyval) : py_ne a b = true ↔ a ≠ b.
Proof.
  destruct a as [|s], b as [|t]; cbn;
    rewrite ?negb_true_iff, ?String.eqb_neq; split; congruence.
Qed.

(** ** The two branches of the handler and the cases of the import *)

Section Properties.

Variables PROJECT_ID LOCATION DATASTORE_ID : pyval.
Variable branch_path : pyval → pyval → pyval → string → string.

Local Abbreviation handle :=
  (import_document_on_gcs_event PROJECT_ID LOCATION DATASTORE_ID branch_path).
Local Abbreviation import :=
  (import_document PROJECT_ID LOCATION DATASTORE_ID branch_path).
Local Abbreviation request_for :=
  (request PROJECT_ID LOCATION DATASTORE_ID branch_path).
Local Abbreviation options := (client_options LOCATION).

(** The three lines of basic event information. *)
Local Abbreviation event_info cloud_event rest :=
  (Print ("Event type: " +:+ ce_type cloud_event)
   :: Print ("Bucket: " +:+ str (dict_get (ce_data cloud_event) "bucket"))
   :: Print ("File: " +:+ str (dict_get (ce_data cloud_event) "name"))
   :: rest).

Local Abbreviation on_error uri :=
  (λ e : exn, print ("Error importing document " +:+ uri +:+ ": " +:+ exn_str e)).

Lemma handle_missing (lib : discoveryengine) (cloud_event : CloudEvent) :
  lacks_field cloud_event "bucket" ∨ lacks_field cloud_event "name" →
  handle lib cloud_event
  = Run (event_info cloud_event
           [Print "No file name or bucket name found in the event data. Exiting."])
        (inr tt).
Proof.
  rewrite !lacks_field_falsy. intros Hmissing.
  unfold import_document_on_gcs_event. cbv zeta.
  rewrite !print_then.
  destruct Hmissing as [-> | ->]; [rewrite orb_true_r|]; reflexivity.
Qed.

Lemma handle_valid (lib : discoveryengine) (cloud_event : CloudEvent)
    (bucket name : string) :
  has_field cloud_event "bucket" bucket →
  has_field cloud_event "name" name →
  let uri := "gs://" +:+ bucket +:+ "/" +:+ name in
  let attempt := try_except (import lib uri) (on_error uri) in
  handle lib cloud_event
  = Run (Print ("Event type: " +:+ ce_type cloud_event)
         :: Print ("Bucket: " +:+ bucket)
         :: Print ("File: " +:+ name)
         :: Print ("Constructed GCS URI: " +:+ uri)
         :: trace attempt)
        (outcome attempt).
Proof.
  intros Hb Hn uri attempt.
  unfold import_document_on_gcs_event. cbv zeta.
  rewrite (has_field_truthy _ _ _ Hb), (has_field_truthy _ _ _ Hn).
  rewrite (has_field_get _ _ _ Hb), (has_field_get _ _ _ Hn).
  cbn [negb orb]. rewrite !print_then. reflexivity.
Qed.

(** The import stops at the first call that raises. *)
Lemma import_no_client (lib : discoveryengine) (uri : string) (e : exn) :
  new_DocumentServiceClient lib options = inl e →
  import lib uri = Run [NewClient options] (inl e).
Proof. intros Hc. unfold import_document. rewrite Hc. reflexivity. Qed.

Lemma import_refused (lib : discoveryengine) (uri : string)
    (client : DocumentServiceClient) (e : exn) :
  new_DocumentServiceClient lib options = inr client →
  import_documents client (request_for uri) = inl e →
  import lib uri
  = Run [NewClient options;
         Print ("Starting document import for: " +:+ uri);
         ImportDocuments (request_for uri)]
        (inl e).
Proof.
  intros Hc Hi. unfold import_document.
  rewrite Hc, perform_returns, print_then, Hi. reflexivity.
Qed.

Lemma import_failed (lib : discoveryengine) (uri : string)
    (client : DocumentServiceClient) (operation : Operation) (e : exn) :
  new_DocumentServiceClient lib options = inr client →
  import_documents client (request_for uri) = inr operation →
  result operation = inl e →
  import lib uri
  = Run [NewClient options;
         Print ("Starting document import for: " +:+ uri);
         ImportDocuments (request_for uri);
         Print ("Waiting for import operation to complete: "
                +:+ operation_name operation);
         OperationResult (operation_name operation)]
        (inl e).
Proof.
  intros Hc Hi Hr. unfold import_document.
  rewrite Hc, perform_returns, print_then, Hi, perform_returns, print_then, Hr.
  reflexivity.
Qed.

Lemma import_unreadable (lib : discoveryengine) (uri : string)
    (client : DocumentServiceClient) (operation : Operation)
    (response : ImportDocumentsResponse) (e : exn) :
  new_DocumentServiceClient lib options = inr client →
  import_documents client (request_for uri) = inr operation →
  result operation = inr response →
  metadata operation = inl e →
  import lib uri
  = Run [NewClient options;
         Print ("Starting document import for: " +:+ uri);
         ImportDocuments (request_for uri);
         Print ("Waiting for import operation to complete: "
                +:+ operation_name operation);
         OperationResult (operation_name operation)]
        (inl e).
Proof.
  intros Hc Hi Hr Hm. unfold import_document.
  rewrite Hc, perform_returns, print_then, Hi, perform_returns, print_then, Hr,
    perform_returns, Hm.
  reflexivity.
Qed.

Lemma import_completed (lib : discoveryengine) (uri : string)
    (client : DocumentServiceClient) (operation : Operation)
    (response : ImportDocumentsResponse) (meta : ImportDocumentsMetadata) :
  new_DocumentServiceClient lib options = inr client →
  import_documents client (request_for uri) = inr operation →
  result operation = inr response →
  metadata operation = inr meta →
  import lib uri
  = Run [NewClient options;
         Print ("Starting document import for: " +:+ uri);
         ImportDocuments (request_for uri);
         Print ("Waiting for import operation to complete: "
                +:+ operation_name operation);
         OperationResult (operation_name operation);
         Print "Import operation response:";
         Print (response_text response);
         Print "Import operation metadata:";
         Print (metadata_text meta);
         Print ("Successfully imported " +:+ uri +:+ " into datastore "
                +:+ str DATASTORE_ID)]
        (inr tt).
Proof.
  intros Hc Hi Hr Hm. unfold import_document.
  rewrite Hc, perform_returns, print_then, Hi, perform_returns, print_then, Hr,
    perform_returns, Hm.
  reflexivity.
Qed.

(** With a client at hand, a valid event leads to exactly one submission,
    whatever the service answers. *)
Lemma handle_submits (lib : discoveryengine) (cloud_event : CloudEvent)
    (bucket name : string) (client : DocumentServiceClient) :
  has_field cloud_event "bucket" bucket →
  has_field cloud_event "name" name →
  new_DocumentServiceClient lib options = inr client →
  submitted (trace (handle lib cloud_event))
  = [request_for ("gs://" +:+ bucket +:+ "/" +:+ name)].
Proof.
  intros Hb Hn Hc. rewrite (handle_valid lib _ _ _ Hb Hn). cbv zeta.
  set (uri := "gs://" +:+ bucket +:+ "/" +:+ name).
  destruct (import_documents client (request_for uri)) as [e|operation] eqn:Hi.
  - rewrite (import_refused lib uri client e Hc Hi).
    unfold try_except. cbn [outcome trace]. by destruct (is_Exception e).
  - destruct (result operation) as [e|response] eqn:Hr.
    + rewrite (import_failed lib uri client operation e Hc Hi Hr).
      unfold try_except. cbn [outcome trace]. by destruct (is_Exception e).
    + destruct (metadata operation) as [e|meta] eqn:Hm.
      * rewrite (import_unreadable lib uri client operation response e Hc Hi Hr Hm).
        unfold try_except. cbn [outcome trace]. by destruct (is_Exception e).
      * by rewrite (import_completed lib uri client operation response meta
                      Hc Hi Hr Hm).
Qed.

(** Without a client nothing is submitted. *)
Lemma handle_without_client (lib : discoveryengine) (cloud_event : CloudEvent)
    (bucket name : string) (e : exn) :
  has_field cloud_event "bucket" bucket →
  has_field cloud_event "name" name →
  new_DocumentServiceClient lib options = inl e →
  submitted (trace (handle lib cloud_event)) = [].
Proof.
  intros Hb Hn Hc. rewrite (handle_valid lib _ _ _ Hb Hn). cbv zeta.
  rewrite (import_no_client lib _ e Hc).
  unfold try_except. cbn [outcome trace]. by destruct (is_Exception e).
Qed.

(** The client is constructed once, with the options the location selects. *)
Lemma handle_clients (lib : discoveryengine) (cloud_event : CloudEvent)
    (bucket name : string) :
  has_field cloud_event "bucket" bucket →
  has_field cloud_event "name" name →
  clients (trace (handle lib cloud_event)) = [options].
Proof.
  intros Hb Hn. rewrite (handle_valid lib _ _ _ Hb Hn). cbv zeta.
  set (uri := "gs://" +:+ bucket +:+ "/" +:+ name).
  destruct (new_DocumentServiceClient lib options) as [e|client] eqn:Hc.
  { rewrite (import_no_client lib uri e Hc).
    unfold try_except. cbn [outcome trace]. by destruct (is_Exception e). }
  destruct (import_documents client (request_for uri)) as [e|operation] eqn:Hi.
  { rewrite (import_refused lib uri client e Hc Hi).
    unfold try_except. cbn [outcome trace]. by destruct (is_Exception e). }
  destruct (result operation) as [e|response] eqn:Hr.
  { rewrite (import_failed lib uri client operation e Hc Hi Hr).
    unfold try_except. cbn [outcome trace]. by destruct (is_Exception e). }
  destruct (metadata operation) as [e|meta] eqn:Hm.
  { rewrite (import_unreadable lib uri client operation response e Hc Hi Hr Hm).
    unfold try_except. cbn [outcome trace]. by destruct (is_Exception e). }
  by rewrite (import_completed lib uri client operation response meta Hc Hi Hr Hm).
Qed.

(** The handler returns normally unless an exception that is not an
    [Exception] escapes the [try] block. *)
Lemma handle_outcome (lib : discoveryengine) (cloud_event : CloudEvent) :
  outcome (handle lib cloud_event) = inr tt
  ∨ ∃ e, outcome (handle lib cloud_event) = inl e ∧ is_Exception e = false.
Proof.
  unfold import_document_on_gcs_event. cbv zeta. rewrite !print_then.
  destruct (negb _ || negb _); [by left|]. cbn [outcome].
  set (uri := gcs_uri _ _).
  destruct (import lib uri) as [t [e|[]]] eqn:Himport.
  - destruct (is_Exception e) eqn:He.
    + rewrite (try_except_catches _ _ _ He). by left.
    + rewrite (try_except_escapes _ _ _ He). right. by exists e.
  - rewrite try_except_returns. by left.
Qed.

(** ** The properties of the handler *)

(** C1, as the code has it: when the submission ([import_documents]) or the
    wait ([operation.result()]) raises an error (an exception whose class
    derives from [Exception]), the handler prints
    "Error importing document <locator>: <error>" as its last action and
    then returns normally: the error is logged with the locator and is not
    passed on to the caller. *)
Theorem remote_error_is_logged_and_swallowed
    (lib : discoveryengine) (cloud_event : CloudEvent) (bucket name : string)
    (client : DocumentServiceClient) (e : exn) :
  has_field cloud_event "bucket" bucket →
  has_field cloud_event "name" name →
  new_DocumentServiceClient lib options = inr client →
  let uri := "gs://" +:+ bucket +:+ "/" +:+ name in
  (import_documents client (request_for uri) = inl e
   ∨ ∃ operation, import_documents client (request_for uri) = inr operation
                  ∧ result operation = inl e) →
  is_Exception e = true →
  outcome (handle lib cloud_event) = inr tt
  ∧ last (trace (handle lib cloud_event))
    = Some (Print ("Error importing document " +:+ uri +:+ ": " +:+ exn_str e)).
Proof.
  intros Hb Hn Hc uri Hraise He.
  rewrite (handle_valid lib _ _ _ Hb Hn). cbv zeta. fold uri.
  destruct Hraise as [Hi | (operation & Hi & Hr)].
  - rewrite (import_refused lib uri client e Hc Hi), (try_except_catches _ _ _ He).
    split; reflexivity.
  - rewrite (import_failed lib uri client operation e Hc Hi Hr),
      (try_except_catches _ _ _ He).
    split; reflexivity.
Qed.

(** C2: for an event whose bucket and name are present and non-empty, the
    locator the handler constructs (and prints as its fourth line) is
    exactly "gs://" + bucket + "/" + name, whatever the configuration and
    the service are: the same pair always gives the same locator. *)
Theorem locator_is_fixed_concatenation
    (lib : discoveryengine) (cloud_event : CloudEvent) (bucket name : string) :
  has_field cloud_event "bucket" bucket →
  has_field cloud_event "name" name →
  gcs_uri (dict_get (ce_data cloud_event) "bucket")
          (dict_get (ce_data cloud_event) "name")
  = "gs://" +:+ bucket +:+ "/" +:+ name
  ∧ printed (trace (handle lib cloud_event)) !! 3
    = Some ("Constructed GCS URI: " +:+ "gs://" +:+ bucket +:+ "/" +:+ name).
Proof.
  intros Hb Hn. split.
  - by rewrite (has_field_get _ _ _ Hb), (has_field_get _ _ _ Hn).
  - by rewrite (handle_valid lib _ _ _ Hb Hn).
Qed.


(** C4: for an event whose bucket or name is absent or empty, the handler
    returns normally and makes no call to the service library: no client is
    constructed and no request is submitted. *)
Theorem missing_field_is_a_noop (lib : discoveryengine) (cloud_event : CloudEvent) :
  lacks_field cloud_event "bucket" ∨ lacks_field cloud_event "name" →
  outcome (handle lib cloud_event) = inr tt
  ∧ service_calls (trace (handle lib cloud_event)) = []
  ∧ submitted (trace (handle lib cloud_event)) = [].
Proof. intros Hmissing. by rewrite (handle_missing lib _ Hmissing). Qed.

(** C5, as the code has it: for an event whose bucket or name is absent or
    empty, the log is the three lines of event information (type, bucket,
    file) followed by exactly one diagnostic line, the fixed text
    "No file name or bucket name found in the event data. Exiting.", the
    same whichever field is missing. *)
Theorem missing_field_log (lib : discoveryengine) (cloud_event : CloudEvent) :
  lacks_field cloud_event "bucket" ∨ lacks_field cloud_event "name" →
  printed (trace (handle lib cloud_event))
  = [ "Event type: " +:+ ce_type cloud_event;
      "Bucket: " +:+ str (dict_get (ce_data cloud_event) "bucket");
      "File: " +:+ str (dict_get (ce_data cloud_event) "name");
      "No file name or bucket name found in the event data. Exiting." ].
Proof. intros Hmissing. by rewrite (handle_missing lib _ Hmissing). Qed.


(** C7: two deliveries of the same event under the same configuration,
    whatever the service does at each, submit the same request: same
    locator, same parent, same schema, same mode. *)
Theorem redelivery_submits_identical_request
    (lib1 lib2 : discoveryengine) (cloud_event : CloudEvent) (bucket name : string)
    (client1 client2 : DocumentServiceClient) :
  has_field cloud_event "bucket" bucket →
  has_field cloud_event "name" name →
  new_DocumentServiceClient lib1 options = inr client1 →
  new_DocumentServiceClient lib2 options = inr client2 →
  ∃ req : ImportDocumentsRequest,
    submitted (trace (handle lib1 cloud_event)) = [req]
    ∧ submitted (trace (handle lib2 cloud_event)) = [req].
Proof.
  intros Hb Hn Hc1 Hc2.
  exists (request_for ("gs://" +:+ bucket +:+ "/" +:+ name)).
  by rewrite (handle_submits lib1 _ _ _ client1 Hb Hn Hc1),
             (handle_submits lib2 _ _ _ client2 Hb Hn Hc2).
Qed.

(** C8: two events that agree on bucket and name, whatever their event
    kinds, take the handler through the same branch: the runs differ in
    nothing but the first log line, so the same calls are made to the
    service, the same request is submitted and the outcome is the same. *)
Theorem event_kind_only_in_first_log_line
    (lib : discoveryengine) (event1 event2 : CloudEvent) :
  dict_get (ce_data event1) "bucket" = dict_get (ce_data event2) "bucket" →
  dict_get (ce_data event1) "name" = dict_get (ce_data event2) "name" →
  trace (handle lib event1)
  = Print ("Event type: " +:+ ce_type event1) :: tail (trace (handle lib event2))
  ∧ service_calls (trace (handle lib event1))
    = service_calls (trace (handle lib event2))
  ∧ submitted (trace (handle lib event1)) = submitted (trace (handle lib event2))
  ∧ outcome (handle lib event1) = outcome (handle lib event2).
Proof.
  intros Hb Hn.
  unfold import_document_on_gcs_event. cbv zeta.
  rewrite Hb, Hn. rewrite 2!(print_then ("Event type: " +:+ _)).
  by repeat split.
Qed.

(** C9: the client is constructed once, with the endpoint the location
    selects: no options when the location is "global", and otherwise the
    endpoint "<LOCATION>-discoveryengine.googleapis.com". *)
Theorem endpoint_follows_location
    (lib : discoveryengine) (cloud_event : CloudEvent) (bucket name : string) :
  has_field cloud_event "bucket" bucket →
  has_field cloud_event "name" name →
  (LOCATION = PyStr "global" →
   clients (trace (handle lib cloud_event)) = [None])
  ∧ (LOCATION ≠ PyStr "global" →
     clients (trace (handle lib cloud_event))
     = [Some {| api_endpoint := str LOCATION +:+ "-discoveryengine.googleapis.com" |}]).
Proof.
  intros Hb Hn. rewrite (handle_clients lib _ _ _ Hb Hn).
  unfold client_options. split.
  - by intros ->.
  - intros Hne. apply py_ne_spec in Hne. by rewrite Hne.
Qed.

End Properties.

(** C10: the locator is not injective in (bucket, name): the two parts are
    pasted in verbatim, so ("a", "b/c") and ("a/b", "c") both give
    "gs://a/b/c", and the handler submits the same request for both
    events. *)
Theorem locator_not_injective :
  gcs_uri (PyStr "a") (PyStr "b/c") = "gs://a/b/c"
  ∧ gcs_uri (PyStr "a/b") (PyStr "c") = "gs://a/b/c"
  ∧ (PyStr "a", PyStr "b/c") ≠ (PyStr "a/b", PyStr "c")
  ∧ ¬ (∀ bucket1 name1 bucket2 name2 : pyval,
         gcs_uri bucket1 name1 = gcs_uri bucket2 name2 →
         bucket1 = bucket2 ∧ name1 = name2)
  ∧ submitted (trace (Scenario.handle (PyStr "global") Scenario.working
                        Scenario.nested_name_event))
    = submitted (trace (Scenario.handle (PyStr "global") Scenario.working
                          Scenario.nested_bucket_event)).
Proof.
  repeat split; try discriminate.
  intros Hinj.
  by destruct (Hinj (PyStr "a") (PyStr "b/c") (PyStr "a/b") (PyStr "c") eq_refl).
Qed.

(** ** The scenario, run *)

Ltac field_present := split; [vm_compute; reflexivity | discriminate].

(** C1 as stated fails: the submission raises an error, and so does the
    wait, yet the handler returns normally in both runs. *)
Lemma remote_error_not_propagated :
  import_documents Scenario.refusing_client Scenario.report_request
  = inl Scenario.permission_denied
  ∧ outcome (Scenario.handle (PyStr "global") Scenario.refusing
               (Scenario.report_event Scenario.finalized)) = inr tt
  ∧ import_documents Scenario.failing_client Scenario.report_request
    = inr Scenario.failed_operation
  ∧ result Scenario.failed_operation = inl Scenario.backend_fault
  ∧ outcome (Scenario.handle (PyStr "global") Scenario.failing
               (Scenario.report_event Scenario.finalized)) = inr tt.
Proof. repeat split; vm_compute; reflexivity. Qed.

Lemma remote_error_is_logged_and_swallowed_witness :
  outcome (Scenario.handle (PyStr "global") Scenario.failing
             (Scenario.report_event Scenario.finalized)) = inr tt
  ∧ last (trace (Scenario.handle (PyStr "global") Scenario.failing
                   (Scenario.report_event Scenario.finalized)))
    = Some (Print "Error importing document gs://docs-bucket/folder/report.pdf: 500 Internal error").
Proof.
  apply (remote_error_is_logged_and_swallowed
           (PyStr "proj1") (PyStr "global") (PyStr "ds1") Scenario.branch_path
           Scenario.failing (Scenario.report_event Scenario.finalized)
           "docs-bucket" "folder/report.pdf"
           Scenario.failing_client Scenario.backend_fault).
  - field_present.
  - field_present.
  - reflexivity.
  - right. exists Scenario.failed_operation. split; reflexivity.
  - reflexivity.
Defined.

Lemma locator_is_fixed_concatenation_witness :
  gcs_uri (dict_get (ce_data (Scenario.report_event Scenario.finalized)) "bucket")
          (dict_get (ce_data (Scenario.report_event Scenario.finalized)) "name")
  = "gs://docs-bucket/folder/report.pdf"
  ∧ printed (trace (Scenario.handle (PyStr "global") Scenario.working
                      (Scenario.report_event Scenario.finalized))) !! 3
    = Some "Constructed GCS URI: gs://docs-bucket/folder/report.pdf".
Proof.
  apply (locator_is_fixed_concatenation
           (PyStr "proj1") (PyStr "global") (PyStr "ds1") Scenario.branch_path
           Scenario.working (Scenario.report_event Scenario.finalized)
           "docs-bucket" "folder/report.pdf"); field_present.
Defined.



Lemma missing_field_is_a_noop_witness :
  outcome (Scenario.handle (PyStr "global") Scenario.working
             Scenario.no_bucket_event) = inr tt
  ∧ service_calls (trace (Scenario.handle (PyStr "global") Scenario.working
                            Scenario.no_bucket_event)) = []
  ∧ submitted (trace (Scenario.handle (PyStr "global") Scenario.working
                        Scenario.no_bucket_event)) = [].
Proof.
  apply (missing_field_is_a_noop
           (PyStr "proj1") (PyStr "global") (PyStr "ds1") Scenario.branch_path
           Scenario.working Scenario.no_bucket_event).
  left. left. vm_compute. reflexivity.
Defined.

(** C5 as stated fails: the run for an event without a bucket logs four
    entries, and its diagnostic is the one an event without a name gets, so
    the diagnostic does not tell which field is missing. *)
Lemma diagnostic_does_not_name_the_field :
  (lacks_field Scenario.no_bucket_event "bucket"
   ∧ ¬ lacks_field Scenario.no_bucket_event "name")
  ∧ (lacks_field Scenario.no_name_event "name"
     ∧ ¬ lacks_field Scenario.no_name_event "bucket")
  ∧ printed (trace (Scenario.handle (PyStr "global") Scenario.working
                      Scenario.no_bucket_event))
    = [ "Event type: google.cloud.storage.object.v1.finalized";
        "Bucket: None";
        "File: folder/report.pdf";
        "No file name or bucket name found in the event data. Exiting." ]
  ∧ printed (trace (Scenario.handle (PyStr "global") Scenario.working
                      Scenario.no_name_event))
    = [ "Event type: google.cloud.storage.object.v1.finalized";
        "Bucket: docs-bucket";
        "File: ";
        "No file name or bucket name found in the event data. Exiting." ]
  ∧ last (printed (trace (Scenario.handle (PyStr "global") Scenario.working
                            Scenario.no_bucket_event)))
    = last (printed (trace (Scenario.handle (PyStr "global") Scenario.working
                              Scenario.no_name_event))).
Proof.
  repeat split; rewrite ?lacks_field_falsy; vm_compute; congruence.
Qed.

Lemma missing_field_log_witness :
  printed (trace (Scenario.handle (PyStr "global") Scenario.working
                    Scenario.no_name_event))
  = [ "Event type: google.cloud.storage.object.v1.finalized";
      "Bucket: docs-bucket";
      "File: ";
      "No file name or bucket name found in the event data. Exiting." ].
Proof.
  apply (missing_field_log
           (PyStr "proj1") (PyStr "global") (PyStr "ds1") Scenario.branch_path
           Scenario.working Scenario.no_name_event).
  right. right. right. vm_compute. reflexivity.
Defined.



Lemma redelivery_submits_identical_request_witness :
  ∃ req : ImportDocumentsRequest,
    submitted (trace (Scenario.handle (PyStr "global") Scenario.working
                        (Scenario.report_event Scenario.finalized))) = [req]
    ∧ submitted (trace (Scenario.handle (PyStr "global") Scenario.refusing
                          (Scenario.report_event Scenario.finalized))) = [req].
Proof.
  apply (redelivery_submits_identical_request
           (PyStr "proj1") (PyStr "global") (PyStr "ds1") Scenario.branch_path
           Scenario.working Scenario.refusing
           (Scenario.report_event Scenario.finalized)
           "docs-bucket" "folder/report.pdf"
           Scenario.working_client Scenario.refusing_client).
  - field_present.
  - field_present.
  - reflexivity.
  - reflexivity.
Defined.

Lemma event_kind_only_in_first_log_line_witness :
  trace (Scenario.handle (PyStr "us") Scenario.working
           (Scenario.report_event Scenario.finalized))
  = Print "Event type: google.cloud.storage.object.v1.finalized"
    :: tail (trace (Scenario.handle (PyStr "us") Scenario.working
                      (Scenario.report_event Scenario.deleted)))
  ∧ service_calls (trace (Scenario.handle (PyStr "us") Scenario.working
                            (Scenario.report_event Scenario.finalized)))
    = service_calls (trace (Scenario.handle (PyStr "us") Scenario.working
                              (Scenario.report_event Scenario.deleted)))
  ∧ submitted (trace (Scenario.handle (PyStr "us") Scenario.working
                        (Scenario.report_event Scenario.finalized)))
    = submitted (trace (Scenario.handle (PyStr "us") Scenario.working
                          (Scenario.report_event Scenario.deleted)))
  ∧ outcome (Scenario.handle (PyStr "us") Scenario.working
               (Scenario.report_event Scenario.finalized))
    = outcome (Scenario.handle (PyStr "us") Scenario.working
                 (Scenario.report_event Scenario.deleted)).
Proof.
  apply (event_kind_only_in_first_log_line
           (PyStr "proj1") (PyStr "us") (PyStr "ds1") Scenario.branch_path
           Scenario.working
           (Scenario.report_event Scenario.finalized)
           (Scenario.report_event Scenario.deleted)).
  - vm_compute. reflexivity.
  - vm_compute. reflexivity.
Defined.

Lemma endpoint_follows_location_witness :
  clients (trace (Scenario.handle (PyStr "global") Scenario.working
                    (Scenario.report_event Scenario.finalized))) = [None]
  ∧ clients (trace (Scenario.handle (PyStr "us") Scenario.working
                      (Scenario.report_event Scenario.finalized)))
    = [Some {| api_endpoint := "us-discoveryengine.googleapis.com" |}].
Proof.
  split.
  - apply (endpoint_follows_location
             (PyStr "proj1") (PyStr "global") (PyStr "ds1") Scenario.branch_path
             Scenario.working (Scenario.report_event Scenario.finalized)
             "docs-bucket" "folder/report.pdf"); [field_present | field_present |].
    reflexivity.
  - apply (endpoint_follows_location
             (PyStr "proj1") (PyStr "us") (PyStr "ds1") Scenario.branch_path
             Scenario.working (Scenario.report_event Scenario.finalized)
             "docs-bucket" "folder/report.pdf"); [field_present | field_present |].
    discriminate.
Defined.

(** ** Further properties of the handler *)

(** A field of the payload is either present and non-empty, or lacking. *)
Lemma has_or_lacks_field (cloud_event : CloudEvent) (k : string) :
  (∃ s, has_field cloud_event k s) ∨ lacks_field cloud_event k.
Proof.
  unfold has_field, lacks_field.
  destruct (ce_data cloud_event !! k) as [[|[|a s]]|]; eauto 6.
Qed.

Lemma has_field_not_lacks (cloud_event : CloudEvent) (k s : string) :
  has_field cloud_event k s → ¬ lacks_field cloud_event k.
Proof.
  intros Hk Hl. apply lacks_field_falsy in Hl.
  by rewrite (has_field_truthy _ _ _ Hk) in Hl.
Qed.

(** Two strings pasted around a slash come apart in one way only when the
    first has no slash. *)
Lemma append_slash_inj (b1 b2 n1 n2 : string) :
  has_slash b1 = false → has_slash b2 = false →
  b1 +:+ "/" +:+ n1 = b2 +:+ "/" +:+ n2 →
  b1 = b2 ∧ n1 = n2.
Proof.
  revert b2. induction b1 as [|c1 b1 IH]; intros [|c2 b2] H1 H2 Heq;
    cbn in H1, H2, Heq.
  - injection Heq as Heq. by subst.
  - injection Heq as Hc _. subst c2. by rewrite Ascii.eqb_refl in H2.
  - injection Heq as Hc _. subst c1. by rewrite Ascii.eqb_refl in H1.
  - injection Heq as Hc Heq. subst c2.
    apply orb_false_iff in H1 as [_ H1]. apply orb_false_iff in H2 as [_ H2].
    by destruct (IH b2 H1 H2 Heq) as [-> ->].
Qed.

Section MoreProperties.

Variables PROJECT_ID LOCATION DATASTORE_ID : pyval.
Variable branch_path : pyval → pyval → pyval → string → string.

Local Abbreviation handle :=
  (import_document_on_gcs_event PROJECT_ID LOCATION DATASTORE_ID branch_path).
Local Abbreviation import :=
  (import_document PROJECT_ID LOCATION DATASTORE_ID branch_path).
Local Abbreviation request_for :=
  (request PROJECT_ID LOCATION DATASTORE_ID branch_path).
Local Abbreviation options := (client_options LOCATION).
Local Abbreviation on_error uri :=
  (λ e : exn, print ("Error importing document " +:+ uri +:+ ": " +:+ exn_str e)).

(** The library's answers decide how far the import gets. *)
Lemma import_cases (lib : discoveryengine) (uri : string) :
  (∃ e, new_DocumentServiceClient lib options = inl e)
  ∨ (∃ client e,
       new_DocumentServiceClient lib options = inr client
       ∧ import_documents client (request_for uri) = inl e)
  ∨ (∃ client operation e,
       new_DocumentServiceClient lib options = inr client
       ∧ import_documents client (request_for uri) = inr operation
       ∧ result operation = inl e)
  ∨ (∃ client operation response e,
       new_DocumentServiceClient lib options = inr client
       ∧ import_documents client (request_for uri) = inr operation
       ∧ result operation = inr response
       ∧ metadata operation = inl e)
  ∨ (∃ client operation response meta,
       new_DocumentServiceClient lib options = inr client
       ∧ import_documents client (request_for uri) = inr operation
       ∧ result operation = inr response
       ∧ metadata operation = inr meta).
Proof.
  destruct (new_DocumentServiceClient lib options) as [e|client]; [eauto|].
  destruct (import_documents client (request_for uri)) as [e|operation] eqn:Hi;
    [eauto 8|].
  destruct (result operation) as [e|response] eqn:Hr; [eauto 12|].
  destruct (metadata operation) as [e|meta] eqn:Hm.
  - do 3 right. left. by exists client, operation, response, e.
  - do 4 right. by exists client, operation, response, meta.
Qed.

(** Split on how far the import gets, and rewrite the run accordingly. *)
Ltac import_case lib uri :=
  let e := fresh "e" in
  let client := fresh "client" in
  let operation := fresh "operation" in
  let response := fresh "response" in
  let Hc := fresh "Hc" in
  let Hi := fresh "Hi" in
  let meta := fresh "meta" in
  let Hr := fresh "Hr" in
  let Hm := fresh "Hm" in
  let He := fresh "He" in
  destruct (import_cases lib uri)
    as [(e & Hc)
       |[(client & e & Hc & Hi)
        |[(client & operation & e & Hc & Hi & Hr)
         |[(client & operation & response & e & Hc & Hi & Hr & Hm)
          |(client & operation & response & meta & Hc & Hi & Hr & Hm)]]]];
  [ rewrite (import_no_client PROJECT_ID LOCATION DATASTORE_ID branch_path
               lib uri e Hc)
  | rewrite (import_refused PROJECT_ID LOCATION DATASTORE_ID branch_path
               lib uri client e Hc Hi)
  | rewrite (import_failed PROJECT_ID LOCATION DATASTORE_ID branch_path
               lib uri client operation e Hc Hi Hr)
  | rewrite (import_unreadable PROJECT_ID LOCATION DATASTORE_ID branch_path
               lib uri client operation response e Hc Hi Hr Hm)
  | rewrite (import_completed PROJECT_ID LOCATION DATASTORE_ID branch_path
               lib uri client operation response meta Hc Hi Hr Hm),
      try_except_returns ];
  [ destruct (is_Exception e) eqn:He;
    [ rewrite (try_except_catches _ _ _ He)
    | rewrite (try_except_escapes _ _ _ He) ] .. | ].

(** X1: whatever the event and whatever the service answers, one
    invocation calls the service library at most three times, in this
    order and each at most once: the client is constructed, the one request
    is submitted, the operation is waited for. There is no retry, no
    second submission, no submission without a client and no wait without
    a submission. *)
Theorem service_called_in_order_at_most_once
    (lib : discoveryengine) (cloud_event : CloudEvent) :
  ∃ name : string,
    service_calls (trace (handle lib cloud_event))
    `prefix_of`
    [ NewClient options;
      ImportDocuments
        (request_for (gcs_uri (dict_get (ce_data cloud_event) "bucket")
                              (dict_get (ce_data cloud_event) "name")));
      OperationResult name ].
Proof.
  destruct (has_or_lacks_field cloud_event "bucket") as [[bucket Hb]|Hb];
    [destruct (has_or_lacks_field cloud_event "name") as [[name Hn]|Hn]|].
  - rewrite (handle_valid _ _ _ _ lib _ _ _ Hb Hn). cbv zeta.
    rewrite (has_field_get _ _ _ Hb), (has_field_get _ _ _ Hn).
    change (gcs_uri (PyStr bucket) (PyStr name))
      with ("gs://" +:+ bucket +:+ "/" +:+ name).
    set (uri := "gs://" +:+ bucket +:+ "/" +:+ name).
    import_case lib uri;
      first [ exists (operation_name operation) | exists "" ];
      cbn [trace service_calls List.filter is_service_call app];
      by eexists.
  - exists "". rewrite (handle_missing _ _ _ _ lib _ (or_intror Hn)).
    apply prefix_nil.
  - exists "". rewrite (handle_missing _ _ _ _ lib _ (or_introl Hb)).
    apply prefix_nil.
Qed.

(** X2: when the client cannot be constructed (the constructor raises an
    error), the failure is handled like a failed import: nothing is
    submitted and nothing is waited for, the error is printed with the
    locator as the last action, and the handler returns normally. *)
Theorem client_failure_is_logged_and_nothing_submitted
    (lib : discoveryengine) (cloud_event : CloudEvent) (bucket name : string)
    (e : exn) :
  has_field cloud_event "bucket" bucket →
  has_field cloud_event "name" name →
  new_DocumentServiceClient lib options = inl e →
  is_Exception e = true →
  let uri := "gs://" +:+ bucket +:+ "/" +:+ name in
  outcome (handle lib cloud_event) = inr tt
  ∧ service_calls (trace (handle lib cloud_event)) = [NewClient options]
  ∧ submitted (trace (handle lib cloud_event)) = []
  ∧ waits (trace (handle lib cloud_event)) = []
  ∧ last (trace (handle lib cloud_event))
    = Some (Print ("Error importing document " +:+ uri +:+ ": " +:+ exn_str e)).
Proof.
  intros Hb Hn Hc He uri.
  rewrite (handle_valid _ _ _ _ lib _ _ _ Hb Hn). cbv zeta. fold uri.
  rewrite (import_no_client _ _ _ _ lib uri e Hc), (try_except_catches _ _ _ He).
  by repeat split.
Qed.

(** X3: an exception whose class does not derive from [Exception] (a
    [KeyboardInterrupt], a [SystemExit]) is not caught: raised by the
    construction of the client, by the submission or by the wait, it
    reaches the caller, and the raising call is the last thing the handler
    does (no error line is printed). *)
Theorem non_exception_escapes
    (lib : discoveryengine) (cloud_event : CloudEvent) (bucket name : string)
    (e : exn) :
  has_field cloud_event "bucket" bucket →
  has_field cloud_event "name" name →
  is_Exception e = false →
  let uri := "gs://" +:+ bucket +:+ "/" +:+ name in
  (new_DocumentServiceClient lib options = inl e
   ∨ ∃ client, new_DocumentServiceClient lib options = inr client
       ∧ (import_documents client (request_for uri) = inl e
          ∨ ∃ operation, import_documents client (request_for uri) = inr operation
                         ∧ result operation = inl e)) →
  outcome (handle lib cloud_event) = inl e
  ∧ ∃ call, last (trace (handle lib cloud_event)) = Some call
            ∧ is_service_call call = true.
Proof.
  intros Hb Hn He uri Hraise.
  rewrite (handle_valid _ _ _ _ lib _ _ _ Hb Hn). cbv zeta. fold uri.
  destruct Hraise as [Hc | (client & Hc & [Hi | (operation & Hi & Hr)])].
  - rewrite (import_no_client _ _ _ _ lib uri e Hc), (try_except_escapes _ _ _ He).
    split; [done|]. by eexists.
  - rewrite (import_refused _ _ _ _ lib uri client e Hc Hi),
      (try_except_escapes _ _ _ He).
    split; [done|]. by eexists.
  - rewrite (import_failed _ _ _ _ lib uri client operation e Hc Hi Hr),
      (try_except_escapes _ _ _ He).
    split; [done|]. by eexists.
Qed.

(** X4: for a valid event, the last line of the log is
    "Successfully imported <locator> into datastore <DATASTORE_ID>" exactly
    when the whole import went through: the client was constructed, the
    submission returned an operation, the wait returned its response and
    the metadata of the operation was read. *)
Theorem success_line_iff_completed
    (lib : discoveryengine) (cloud_event : CloudEvent) (bucket name : string) :
  has_field cloud_event "bucket" bucket →
  has_field cloud_event "name" name →
  let uri := "gs://" +:+ bucket +:+ "/" +:+ name in
  last (printed (trace (handle lib cloud_event)))
  = Some ("Successfully imported " +:+ uri +:+ " into datastore "
          +:+ str DATASTORE_ID)
  ↔ ∃ client operation response meta,
      new_DocumentServiceClient lib options = inr client
      ∧ import_documents client (request_for uri) = inr operation
      ∧ result operation = inr response
      ∧ metadata operation = inr meta.
Proof.
  intros Hb Hn uri.
  rewrite (handle_valid _ _ _ _ lib _ _ _ Hb Hn). cbv zeta. fold uri.
  import_case lib uri; cbn;
    (split;
     [ intros Hlast
     | intros (client' & operation' & response' & meta' & Hc' & Hi' & Hr' & Hm') ]);
    try discriminate; try congruence; eauto 10.
Qed.

(** X5: when the operation completes and the wait returns its response, but
    reading the metadata of the operation raises an error, the handler
    prints neither the response nor the metadata: after the wait it prints
    "Error importing document <locator>: <error>" and returns normally,
    the request having been submitted and waited for. *)
Theorem metadata_error_hides_the_response
    (lib : discoveryengine) (cloud_event : CloudEvent) (bucket name : string)
    (client : DocumentServiceClient) (operation : Operation)
    (response : ImportDocumentsResponse) (e : exn) :
  has_field cloud_event "bucket" bucket →
  has_field cloud_event "name" name →
  new_DocumentServiceClient lib options = inr client →
  let uri := "gs://" +:+ bucket +:+ "/" +:+ name in
  import_documents client (request_for uri) = inr operation →
  result operation = inr response →
  metadata operation = inl e →
  is_Exception e = true →
  outcome (handle lib cloud_event) = inr tt
  ∧ service_calls (trace (handle lib cloud_event))
    = [ NewClient options;
        ImportDocuments (request_for uri);
        OperationResult (operation_name operation) ]
  ∧ printed (trace (handle lib cloud_event))
    = [ "Event type: " +:+ ce_type cloud_event;
        "Bucket: " +:+ bucket;
        "File: " +:+ name;
        "Constructed GCS URI: " +:+ uri;
        "Starting document import for: " +:+ uri;
        "Waiting for import operation to complete: " +:+ operation_name operation;
        "Error importing document " +:+ uri +:+ ": " +:+ exn_str e ].
Proof.
  intros Hb Hn Hc uri Hi Hr Hm He.
  rewrite (handle_valid _ _ _ _ lib _ _ _ Hb Hn). cbv zeta. fold uri.
  rewrite (import_unreadable _ _ _ _ lib uri client operation response e
             Hc Hi Hr Hm),
    (try_except_catches _ _ _ He).
  by repeat split.
Qed.

(** X6: when bucket names have no slash in them (as is the rule for
    bucket names), the request tells the object: two valid events for which
    the handler submits the same request have the same bucket and the same
    object name. *)
Theorem same_request_same_object
    (lib : discoveryengine) (event1 event2 : CloudEvent)
    (bucket1 name1 bucket2 name2 : string) (client : DocumentServiceClient) :
  has_field event1 "bucket" bucket1 →
  has_field event1 "name" name1 →
  has_field event2 "bucket" bucket2 →
  has_field event2 "name" name2 →
  has_slash bucket1 = false →
  has_slash bucket2 = false →
  new_DocumentServiceClient lib options = inr client →
  submitted (trace (handle lib event1)) = submitted (trace (handle lib event2)) →
  bucket1 = bucket2 ∧ name1 = name2.
Proof.
  intros Hb1 Hn1 Hb2 Hn2 Hs1 Hs2 Hc.
  rewrite (handle_submits _ _ _ _ lib _ _ _ client Hb1 Hn1 Hc),
          (handle_submits _ _ _ _ lib _ _ _ client Hb2 Hn2 Hc).
  intros Hsame.
  apply (f_equal (fmap (λ req, input_uris (gcs_source req)))) in Hsame.
  cbn in Hsame. apply (append_slash_inj _ _ _ _ Hs1 Hs2).
  by simplify_eq.
Qed.

(** X7: the handler leaves the service library alone exactly when the
    bucket or the name is absent or empty; with both fields present and
    non-empty it always goes on to construct the client. *)
Theorem no_service_call_iff_field_lacking
    (lib : discoveryengine) (cloud_event : CloudEvent) :
  service_calls (trace (handle lib cloud_event)) = []
  ↔ lacks_field cloud_event "bucket" ∨ lacks_field cloud_event "name".
Proof.
  split.
  - intros Hnone.
    destruct (has_or_lacks_field cloud_event "bucket") as [[bucket Hb]|Hb];
      [|by left].
    destruct (has_or_lacks_field cloud_event "name") as [[name Hn]|Hn];
      [|by right].
    exfalso. revert Hnone.
    rewrite (handle_valid _ _ _ _ lib _ _ _ Hb Hn). cbv zeta.
    set (uri := "gs://" +:+ bucket +:+ "/" +:+ name).
    import_case lib uri; cbn; discriminate.
  - intros Hmissing. by rewrite (handle_missing _ _ _ _ lib _ Hmissing).
Qed.

End MoreProperties.

(** X8: the configuration is not checked. When the variable LOCATION is
    not set, the constant is [None], which is not "global": for a valid
    event the client is constructed with the endpoint
    "None-discoveryengine.googleapis.com", and a request is still submitted,
    its parent built with [None] for the location. *)
Theorem unset_location_gives_None_endpoint
    (environ : gmap string string)
    (branch_path : pyval → pyval → pyval → string → string)
    (lib : discoveryengine) (cloud_event : CloudEvent) (bucket name : string) :
  environ !! "LOCATION" = None →
  has_field cloud_event "bucket" bucket →
  has_field cloud_event "name" name →
  clients (trace (loaded_handler environ branch_path lib cloud_event))
  = [Some {| api_endpoint := "None-discoveryengine.googleapis.com" |}]
  ∧ ∀ client,
      new_DocumentServiceClient lib
        (Some {| api_endpoint := "None-discoveryengine.googleapis.com" |})
      = inr client →
      ∃ req,
        submitted (trace (loaded_handler environ branch_path lib cloud_event))
        = [req]
        ∧ parent req
          = branch_path (os_environ_get environ "PROJECT_ID") PyNone
                        (os_environ_get environ "DATASTORE_ID") "default_branch".
Proof.
  intros Hunset Hb Hn. unfold loaded_handler.
  assert (os_environ_get environ "LOCATION" = PyNone) as ->
    by (unfold os_environ_get; by rewrite Hunset).
  split.
  - by rewrite (handle_clients _ _ _ _ lib _ _ _ Hb Hn).
  - intros client Hc.
    rewrite (handle_submits _ PyNone _ _ lib _ _ _ client Hb Hn Hc).
    by eexists.
Qed.

(** ** The further properties on the scenario *)

Lemma client_failure_is_logged_and_nothing_submitted_witness :
  outcome (Scenario.handle (PyStr "global") Scenario.without_credentials
             (Scenario.report_event Scenario.finalized)) = inr tt
  ∧ service_calls (trace (Scenario.handle (PyStr "global") Scenario.without_credentials
                            (Scenario.report_event Scenario.finalized)))
    = [NewClient None]
  ∧ submitted (trace (Scenario.handle (PyStr "global") Scenario.without_credentials
                        (Scenario.report_event Scenario.finalized))) = []
  ∧ waits (trace (Scenario.handle (PyStr "global") Scenario.without_credentials
                    (Scenario.report_event Scenario.finalized))) = []
  ∧ last (trace (Scenario.handle (PyStr "global") Scenario.without_credentials
                   (Scenario.report_event Scenario.finalized)))
    = Some (Print "Error importing document gs://docs-bucket/folder/report.pdf: Your default credentials were not found.").
Proof.
  apply (client_failure_is_logged_and_nothing_submitted
           (PyStr "proj1") (PyStr "global") (PyStr "ds1") Scenario.branch_path
           Scenario.without_credentials (Scenario.report_event Scenario.finalized)
           "docs-bucket" "folder/report.pdf" Scenario.no_credentials).
  - field_present.
  - field_present.
  - reflexivity.
  - reflexivity.
Defined.

Lemma non_exception_escapes_witness :
  outcome (Scenario.handle (PyStr "global") Scenario.interrupted
             (Scenario.report_event Scenario.finalized))
  = inl Scenario.keyboard_interrupt
  ∧ ∃ call,
      last (trace (Scenario.handle (PyStr "global") Scenario.interrupted
                     (Scenario.report_event Scenario.finalized))) = Some call
      ∧ is_service_call call = true.
Proof.
  apply (non_exception_escapes
           (PyStr "proj1") (PyStr "global") (PyStr "ds1") Scenario.branch_path
           Scenario.interrupted (Scenario.report_event Scenario.finalized)
           "docs-bucket" "folder/report.pdf" Scenario.keyboard_interrupt).
  - field_present.
  - field_present.
  - reflexivity.
  - right. exists Scenario.interrupted_client. split; [reflexivity|].
    left. reflexivity.
Defined.

Lemma success_line_iff_completed_witness :
  last (printed (trace (Scenario.handle (PyStr "global") Scenario.working
                          (Scenario.report_event Scenario.finalized))))
  = Some "Successfully imported gs://docs-bucket/folder/report.pdf into datastore ds1".
Proof.
  refine (proj2 (success_line_iff_completed
                   (PyStr "proj1") (PyStr "global") (PyStr "ds1")
                   Scenario.branch_path
                   Scenario.working (Scenario.report_event Scenario.finalized)
                   "docs-bucket" "folder/report.pdf" _ _) _).
  - field_present.
  - field_present.
  - exists Scenario.working_client, Scenario.done_operation, Scenario.response,
      {| metadata_text := "success_count: 1" |}.
    repeat split; reflexivity.
Defined.

Lemma metadata_error_hides_the_response_witness :
  outcome (Scenario.handle (PyStr "global") Scenario.unreadable
             (Scenario.report_event Scenario.finalized)) = inr tt
  ∧ service_calls (trace (Scenario.handle (PyStr "global") Scenario.unreadable
                            (Scenario.report_event Scenario.finalized)))
    = [ NewClient None;
        ImportDocuments Scenario.report_request;
        OperationResult "operations/import-documents-3" ]
  ∧ printed (trace (Scenario.handle (PyStr "global") Scenario.unreadable
                      (Scenario.report_event Scenario.finalized)))
    = [ "Event type: google.cloud.storage.object.v1.finalized";
        "Bucket: docs-bucket";
        "File: folder/report.pdf";
        "Constructed GCS URI: gs://docs-bucket/folder/report.pdf";
        "Starting document import for: gs://docs-bucket/folder/report.pdf";
        "Waiting for import operation to complete: operations/import-documents-3";
        "Error importing document gs://docs-bucket/folder/report.pdf: Could not convert Any to ImportDocumentsMetadata" ].
Proof.
  apply (metadata_error_hides_the_response
           (PyStr "proj1") (PyStr "global") (PyStr "ds1") Scenario.branch_path
           Scenario.unreadable (Scenario.report_event Scenario.finalized)
           "docs-bucket" "folder/report.pdf"
           Scenario.unreadable_client Scenario.unreadable_operation
           Scenario.response Scenario.metadata_error).
  - field_present.
  - field_present.
  - reflexivity.
  - reflexivity.
  - reflexivity.
  - reflexivity.
  - reflexivity.
Defined.

Lemma same_request_same_object_witness :
  "docs-bucket" = "docs-bucket" ∧ "folder/report.pdf" = "folder/report.pdf".
Proof.
  apply (same_request_same_object
           (PyStr "proj1") (PyStr "global") (PyStr "ds1") Scenario.branch_path
           Scenario.working
           (Scenario.report_event Scenario.finalized)
           (Scenario.report_event Scenario.deleted)
           "docs-bucket" "folder/report.pdf" "docs-bucket" "folder/report.pdf"
           Scenario.working_client).
  - field_present.
  - field_present.
  - field_present.
  - field_present.
  - reflexivity.
  - reflexivity.
  - reflexivity.
  - vm_compute. reflexivity.
Defined.

Lemma unset_location_gives_None_endpoint_witness :
  clients (trace (loaded_handler Scenario.environ_without_location
                    Scenario.branch_path Scenario.working Scenario.other_event))
  = [Some {| api_endpoint := "None-discoveryengine.googleapis.com" |}]
  ∧ ∀ client,
      new_DocumentServiceClient Scenario.working
        (Some {| api_endpoint := "None-discoveryengine.googleapis.com" |})
      = inr client →
      ∃ req,
        submitted (trace (loaded_handler Scenario.environ_without_location
                            Scenario.branch_path Scenario.working
                            Scenario.other_event))
        = [req]
        ∧ parent req
          = "projects/proj1/locations/None/dataStores/ds1/branches/default_branch".
Proof.
  apply (unset_location_gives_None_endpoint
           Scenario.environ_without_location Scenario.branch_path
           Scenario.working Scenario.other_event "docs-bucket" "notes.txt").
  - vm_compute. reflexivity.
  - field_present.
  - field_present.
Defined.
